(** * Employee / Office service: a shallow embedding of routes/employees.js,
    routes/offices.js and the Mongoose models Employee and Office.

    Conventions of the embedding:
    - JS numbers held in the count and date fields are integers, written as [Z];
      dates are millisecond timestamps ([Z]).
    - A request body is a record of optional fields: [None] is an absent
      (undefined) key.
    - The store is an association list [(id, document)] in natural (insertion)
      order, which is the order [Model.find] returns documents in.
    - Each route handler is a computation in a small state/error monad over
      the store; the route's [try { ... } catch (err) { ... }] is [catch_].
    - The handlers are the async functions after the [protect] / [admin]
      middleware, which are external to this code. *)

From Stdlib Require Import ZArith List String Ascii Bool Lia.
From Stdlib Require Import DecimalString.
From Stdlib Require Import Floats.
Import ListNotations.
Open Scope string_scope.
Open Scope Z_scope.

(** ** JS strings *)

Definition is_ws (c : ascii) : bool :=
  match nat_of_ascii c with
  | 9 | 10 | 11 | 12 | 13 | 32 => true
  | _ => false
  end%nat.

Fixpoint drop_ws (l : list ascii) : list ascii :=
  match l with
  | c :: r => if is_ws c then drop_ws r else l
  | [] => []
  end.

(** [String.prototype.trim], on the ASCII white space characters. *)
Definition trim (s : string) : string :=
  string_of_list_ascii (rev (drop_ws (rev (drop_ws (list_ascii_of_string s))))).

(** JS truthiness of a string: the empty string is falsy. *)
Definition truthy_str (s : option string) : bool :=
  match s with
  | Some s => negb (String.eqb s "")
  | None => false
  end.

(** JS truthiness of a number. *)
Definition truthy_num (z : option Z) : bool :=
  match z with
  | Some z => negb (Z.eqb z 0)
  | None => false
  end.

(** [messages.join(', ')] *)
Fixpoint join (sep : string) (l : list string) : string :=
  match l with
  | [] => ""
  | [x] => x
  | x :: r => x ++ sep ++ join sep r
  end.

Definition is_hex (c : ascii) : bool :=
  let n := nat_of_ascii c in
  (((48 <=? n) && (n <=? 57)) || ((97 <=? n) && (n <=? 102))
   || ((65 <=? n) && (n <=? 70)))%nat.

(** Mongoose's ObjectId cast accepts a 24-character hex string (bson >= 5). *)
Definition is_object_id (s : string) : bool :=
  (String.length s =? 24)%nat && forallb is_hex (list_ascii_of_string s).

(** [String(new ObjectId(s))]: the cast keeps the hex digits, in lower case. *)
Definition lower_hex_char (c : ascii) : ascii :=
  let n := nat_of_ascii c in
  if ((65 <=? n) && (n <=? 70))%nat then ascii_of_nat (n + 32) else c.

Definition lower_hex (s : string) : string :=
  string_of_list_ascii (map lower_hex_char (list_ascii_of_string s)).

(** ** Callers (produced by the [protect] middleware) *)

(** [u_officeId] is [req.user.officeId.toString()], the lower-case hex form
    of the user's ObjectId. *)
Record user := mkUser { u_id : string; u_role : string; u_officeId : string }.

Definition is_admin (u : user) : bool := String.eqb (u_role u) "admin".

(** ** Documents *)

Record employee := mkEmployee {
  e_name : string;
  e_officeId : string;
  e_isRegisteredOnIGOT : bool;
  e_coursesEnrolled : Z;
  e_coursesCompleted : Z;
  e_reportDate : Z;
  e_isFrozen : bool;
  e_createdBy : string;
  e_createdAt : Z;
  e_updatedAt : Z
}.

Record office := mkOffice {
  o_name : string;
  o_location : string;
  o_description : option string;
  o_createdBy : string;
  o_createdAt : Z
}.

Definition store (D : Type) := list (string * D).

Fixpoint lookup {D} (s : store D) (id : string) : option D :=
  match s with
  | [] => None
  | (k, d) :: r => if String.eqb k id then Some d else lookup r id
  end.

Fixpoint replace {D} (s : store D) (id : string) (d' : D) : store D :=
  match s with
  | [] => []
  | (k, d) :: r =>
      if String.eqb k id then (k, d') :: r else (k, d) :: replace r id d'
  end.

Definition remove {D} (s : store D) (id : string) : store D :=
  filter (fun kd => negb (String.eqb (fst kd) id)) s.

(** ** Responses: [res.status(code).json({ success, message?, data? })] *)

Inductive payload :=
| PNone
| PEmpty
| PEmployee (e : employee)
| PEmployees (es : list employee)
| POffice (o : office)
| PDashboard (total registered notRegistered : Z)
    (enrolled completed : float) (completionRate : string).

Record response := mkResp {
  status : Z;
  success : bool;
  message : option string;
  data : payload
}.

Definition fail (code : Z) (msg : string) : response :=
  mkResp code false (Some msg) PNone.
Definition ok (code : Z) (d : payload) : response := mkResp code true None d.

(** ** Exceptions thrown by the store and the await/try/catch monad *)

Inductive js_error :=
| CastError (kind : string)
| ValidationError (errors : list string)
| ServerFault.

Definition err_name (e : js_error) : string :=
  match e with
  | CastError _ => "CastError"
  | ValidationError _ => "ValidationError"
  | ServerFault => "Error"
  end.

Definition M (S A : Type) := S -> (js_error + A) * S.

Definition ret {S A} (a : A) : M S A := fun s => (inr a, s).
Definition throw {S A} (e : js_error) : M S A := fun s => (inl e, s).
Definition bind {S A B} (m : M S A) (k : A -> M S B) : M S B :=
  fun s => match m s with
           | (inl e, s') => (inl e, s')
           | (inr a, s') => k a s'
           end.
Definition get {S} : M S S := fun s => (inr s, s).
Definition put {S} (s : S) : M S unit := fun _ => (inr tt, s).

Notation "x <- m ;; k" := (bind m (fun x => k))
  (at level 61, m at next level, right associativity).

(** [try { body } catch (err) { handler }]: a route always answers. *)
Definition catch_ {S} (body : M S response) (handler : js_error -> response)
  (s : S) : response * S :=
  match body s with
  | (inl e, s') => (handler e, s')
  | (inr r, s') => (r, s')
  end.

(** [Model.findById(id)]: the id is cast to an ObjectId first. *)
Definition findById {D} (id : string) : M (store D) (option D) :=
  if is_object_id id then (st <- get ;; ret (lookup st id))
  else throw (CastError "ObjectId").

(** [Model.findByIdAndDelete(id)] *)
Definition findByIdAndDelete {D} (id : string) : M (store D) unit :=
  if is_object_id id then (st <- get ;; put (remove st id))
  else throw (CastError "ObjectId").

(** ** models/Employee.js: building, validating and saving a document *)

(** The fields handed to [Employee.create({...})]; [None] is [undefined]. *)
Record employee_draft := mkDraft {
  d_name : option string;
  d_officeId : option string;
  d_isRegisteredOnIGOT : option bool;
  d_coursesEnrolled : option Z;
  d_coursesCompleted : option Z;
  d_reportDate : Z;
  d_createdBy : string
}.

Definition msg_name_required := "Please add employee name".
Definition msg_name_length := "Name cannot be more than 100 characters".
Definition msg_office_required := "Please add office".
Definition msg_enrolled :=
  "Courses enrolled should be 0 if not registered on iGOT platform".
Definition msg_completed :=
  "Courses completed cannot be more than courses enrolled".

(** The double quote character. *)
Definition dq : string := String (ascii_of_nat 34) EmptyString.

(** The message of the [CastError] Mongoose 8 records when the string [o]
    does not cast to an ObjectId at [path]:
    [Cast to ObjectId failed for value "o" (type string) at path "path"
    because of "BSONError"] (for a value without quotes, backslashes or
    control characters, which [util.inspect] would escape). *)
Definition msg_objectid_cast (path o : string) : string :=
  "Cast to ObjectId failed for value " ++ dq ++ o ++ dq ++ " (type string) at path "
  ++ dq ++ path ++ dq ++ " because of " ++ dq ++ "BSONError" ++ dq.

(** [name]: [required], [trim], [maxlength: 100] (the value is already trimmed). *)
Definition validate_name (n : option string) : list string :=
  match n with
  | None => [msg_name_required]
  | Some n =>
      if String.eqb n "" then [msg_name_required]
      else if (100 <? String.length n)%nat then [msg_name_length] else []
  end.

(** [officeId] while [new Employee(d)] is built: a value that does not cast
    is recorded at once as an error of the document. *)
Definition officeId_cast_errors (o : option string) : list string :=
  match o with
  | Some o => if is_object_id o then [] else [msg_objectid_cast "officeId" o]
  | None => []
  end.

(** [officeId]: [required]; a path whose cast failed is not validated again. *)
Definition validate_officeId (o : option string) : list string :=
  match o with
  | None => [msg_office_required]
  | Some _ => []
  end.

(** The document validator of [coursesEnrolled]; [this] is the document. *)
Definition coursesEnrolled_validator (isRegisteredOnIGOT : bool) (val : Z) : bool :=
  if isRegisteredOnIGOT then 0 <=? val else val =? 0.

(** The document validator of [coursesCompleted]; [this] is the document. *)
Definition coursesCompleted_validator (coursesEnrolled : Z) (val : Z) : bool :=
  val <=? coursesEnrolled.

(** The document [new Employee(d)] holds: defaults filled in, name trimmed. *)
Definition doc_isRegisteredOnIGOT (d : employee_draft) : bool :=
  match d_isRegisteredOnIGOT d with Some b => b | None => false end.
Definition doc_coursesEnrolled (d : employee_draft) : Z :=
  match d_coursesEnrolled d with Some z => z | None => 0 end.
Definition doc_coursesCompleted (d : employee_draft) : Z :=
  match d_coursesCompleted d with Some z => z | None => 0 end.
Definition doc_name (d : employee_draft) : option string :=
  option_map trim (d_name d).

(** The errors of [err.errors] when [Employee.create(d)] fails, in their
    order: the cast error recorded while the document was built comes first,
    then [doc.validate()] adds the failures of the paths in schema order.
    [reportDate] is always set by the route and [createdBy] is
    [req.user.id]. *)
Definition validate_employee (d : employee_draft) : list string :=
  officeId_cast_errors (d_officeId d)
  ++ validate_name (doc_name d)
  ++ validate_officeId (d_officeId d)
  ++ (if coursesEnrolled_validator (doc_isRegisteredOnIGOT d) (doc_coursesEnrolled d)
      then [] else [msg_enrolled])
  ++ (if coursesCompleted_validator (doc_coursesEnrolled d) (doc_coursesCompleted d)
      then [] else [msg_completed]).

(** The three readings of [Date.now()] during [POST /api/employees]: in the
    route ([reportDate || Date.now()]), when [new Employee(d)] fills the
    default of [createdAt], and in the [pre('save')] hook ([updatedAt]). *)
Record clock := mkClock { t_route : Z; t_build : Z; t_save : Z }.

(** [Employee.create(d)]: build the document ([createdAt] default), validate,
    run the [pre('save')] hook ([updatedAt = Date.now()]), insert under the
    fresh id [new_id]. [officeId] is stored as the ObjectId it casts to. *)
Definition Employee_create (now : clock) (new_id : string) (d : employee_draft)
  : M (store employee) employee :=
  match validate_employee d with
  | [] =>
      let e := mkEmployee
                 (match doc_name d with Some n => n | None => "" end)
                 (match d_officeId d with Some o => lower_hex o | None => "" end)
                 (doc_isRegisteredOnIGOT d) (doc_coursesEnrolled d)
                 (doc_coursesCompleted d) (d_reportDate d) false
                 (d_createdBy d) (t_build now) (t_save now) in
      st <- get ;; _ <- put (app st [(new_id, e)]) ;; ret e
  | errs => throw (ValidationError errs)
  end.

(** ** Update documents, as [req.body] reaches [findByIdAndUpdate]:
    top-level keys and [$set] are set paths of the schema, [$inc]
    increments (the other update operators are not modelled). *)

Inductive set_field :=
| SetName (s : string)
| SetOfficeId (s : string)
| SetIsRegisteredOnIGOT (b : bool)
| SetCoursesEnrolled (z : Z)
| SetCoursesCompleted (z : Z)
| SetReportDate (z : Z)
| SetIsFrozen (b : bool)
| SetCreatedBy (s : string)
| SetCreatedAt (z : Z)
| SetUpdatedAt (z : Z).

Inductive inc_field :=
| IncCoursesEnrolled (z : Z)
| IncCoursesCompleted (z : Z).

Record update := mkUpdate { u_set : list set_field; u_inc : list inc_field }.

(** The ObjectId paths [officeId] and [createdBy] are stored as the ObjectId
    the string casts to; [name] is trimmed by its setter. *)
Definition apply_set (e : employee) (f : set_field) : employee :=
  match f with
  | SetName s =>
      {| e_name := trim s; e_officeId := e_officeId e;
         e_isRegisteredOnIGOT := e_isRegisteredOnIGOT e; e_coursesEnrolled := e_coursesEnrolled e;
         e_coursesCompleted := e_coursesCompleted e; e_reportDate := e_reportDate e;
         e_isFrozen := e_isFrozen e; e_createdBy := e_createdBy e;
         e_createdAt := e_createdAt e; e_updatedAt := e_updatedAt e |}
  | SetOfficeId s =>
      {| e_name := e_name e; e_officeId := lower_hex s;
         e_isRegisteredOnIGOT := e_isRegisteredOnIGOT e; e_coursesEnrolled := e_coursesEnrolled e;
         e_coursesCompleted := e_coursesCompleted e; e_reportDate := e_reportDate e;
         e_isFrozen := e_isFrozen e; e_createdBy := e_createdBy e;
         e_createdAt := e_createdAt e; e_updatedAt := e_updatedAt e |}
  | SetIsRegisteredOnIGOT b =>
      {| e_name := e_name e; e_officeId := e_officeId e;
         e_isRegisteredOnIGOT := b; e_coursesEnrolled := e_coursesEnrolled e;
         e_coursesCompleted := e_coursesCompleted e; e_reportDate := e_reportDate e;
         e_isFrozen := e_isFrozen e; e_createdBy := e_createdBy e;
         e_createdAt := e_createdAt e; e_updatedAt := e_updatedAt e |}
  | SetCoursesEnrolled z =>
      {| e_name := e_name e; e_officeId := e_officeId e;
         e_isRegisteredOnIGOT := e_isRegisteredOnIGOT e; e_coursesEnrolled := z;
         e_coursesCompleted := e_coursesCompleted e; e_reportDate := e_reportDate e;
         e_isFrozen := e_isFrozen e; e_createdBy := e_createdBy e;
         e_createdAt := e_createdAt e; e_updatedAt := e_updatedAt e |}
  | SetCoursesCompleted z =>
      {| e_name := e_name e; e_officeId := e_officeId e;
         e_isRegisteredOnIGOT := e_isRegisteredOnIGOT e; e_coursesEnrolled := e_coursesEnrolled e;
         e_coursesCompleted := z; e_reportDate := e_reportDate e;
         e_isFrozen := e_isFrozen e; e_createdBy := e_createdBy e;
         e_createdAt := e_createdAt e; e_updatedAt := e_updatedAt e |}
  | SetReportDate z =>
      {| e_name := e_name e; e_officeId := e_officeId e;
         e_isRegisteredOnIGOT := e_isRegisteredOnIGOT e; e_coursesEnrolled := e_coursesEnrolled e;
         e_coursesCompleted := e_coursesCompleted e; e_reportDate := z;
         e_isFrozen := e_isFrozen e; e_createdBy := e_createdBy e;
         e_createdAt := e_createdAt e; e_updatedAt := e_updatedAt e |}
  | SetIsFrozen b =>
      {| e_name := e_name e; e_officeId := e_officeId e;
         e_isRegisteredOnIGOT := e_isRegisteredOnIGOT e; e_coursesEnrolled := e_coursesEnrolled e;
         e_coursesCompleted := e_coursesCompleted e; e_reportDate := e_reportDate e;
         e_isFrozen := b; e_createdBy := e_createdBy e;
         e_createdAt := e_createdAt e; e_updatedAt := e_updatedAt e |}
  | SetCreatedBy s =>
      {| e_name := e_name e; e_officeId := e_officeId e;
         e_isRegisteredOnIGOT := e_isRegisteredOnIGOT e; e_coursesEnrolled := e_coursesEnrolled e;
         e_coursesCompleted := e_coursesCompleted e; e_reportDate := e_reportDate e;
         e_isFrozen := e_isFrozen e; e_createdBy := lower_hex s;
         e_createdAt := e_createdAt e; e_updatedAt := e_updatedAt e |}
  | SetCreatedAt z =>
      {| e_name := e_name e; e_officeId := e_officeId e;
         e_isRegisteredOnIGOT := e_isRegisteredOnIGOT e; e_coursesEnrolled := e_coursesEnrolled e;
         e_coursesCompleted := e_coursesCompleted e; e_reportDate := e_reportDate e;
         e_isFrozen := e_isFrozen e; e_createdBy := e_createdBy e;
         e_createdAt := z; e_updatedAt := e_updatedAt e |}
  | SetUpdatedAt z =>
      {| e_name := e_name e; e_officeId := e_officeId e;
         e_isRegisteredOnIGOT := e_isRegisteredOnIGOT e; e_coursesEnrolled := e_coursesEnrolled e;
         e_coursesCompleted := e_coursesCompleted e; e_reportDate := e_reportDate e;
         e_isFrozen := e_isFrozen e; e_createdBy := e_createdBy e;
         e_createdAt := e_createdAt e; e_updatedAt := z |}
  end.

Definition apply_inc (e : employee) (f : inc_field) : employee :=
  match f with
  | IncCoursesEnrolled z => apply_set e (SetCoursesEnrolled (e_coursesEnrolled e + z))
  | IncCoursesCompleted z => apply_set e (SetCoursesCompleted (e_coursesCompleted e + z))
  end.

Definition apply_update (e : employee) (u : update) : employee :=
  fold_left apply_inc (u_inc u) (fold_left apply_set (u_set u) e).

(** Casting the update ([castUpdate]) before any validator: an ObjectId path
    set to a string that is not an ObjectId throws a [CastError]. *)
Definition set_field_casts (f : set_field) : bool :=
  match f with
  | SetOfficeId s | SetCreatedBy s => is_object_id s
  | _ => true
  end.

Definition update_casts (u : update) : bool := forallb set_field_casts (u_set u).

(** Update validators ([runValidators: true]) run only on the set paths, and
    the schema validators see [this] bound to the Query (Mongoose >= 6), on
    which [this.isRegisteredOnIGOT] and [this.coursesEnrolled] are
    [undefined]: [val >= 0 : val === 0] takes the [val === 0] branch, and
    [val <= undefined] is [false]. [$inc] is not validated. *)
Definition update_validate_field (f : set_field) : list string :=
  match f with
  | SetName s => validate_name (Some (trim s))
  | SetCoursesEnrolled v => if v =? 0 then [] else [msg_enrolled]
  | SetCoursesCompleted _ => [msg_completed]
  | _ => []
  end.

(** The update's cast walks its keys from the last to the first, and the
    validation errors are reported in that order: the reverse of the body's. *)
Definition update_validate (u : update) : list string :=
  rev (flat_map update_validate_field (u_set u)).

(** [Employee.findByIdAndUpdate(id, u, { new: true, runValidators })]:
    cast the id and the update, run the update validators, then write.
    No save middleware runs and the schema has no [timestamps] option. *)
Definition Employee_findByIdAndUpdate (id : string) (u : update)
  (runValidators : bool) : M (store employee) (option employee) :=
  if negb (is_object_id id) then throw (CastError "ObjectId") else
  if negb (update_casts u) then throw (CastError "ObjectId") else
  match (if runValidators then update_validate u else []) with
  | [] =>
      st <- get ;;
      match lookup st id with
      | None => ret None
      | Some e => let e' := apply_update e u in
                  _ <- put (replace st id e') ;; ret (Some e')
      end
  | errs => throw (ValidationError errs)
  end.

(** ** routes/employees.js *)

(** A [POST /] body, destructured as
    [{ name, officeId, isRegisteredOnIGOT, coursesEnrolled, coursesCompleted, reportDate }]. *)
Record employee_body := mkBody {
  b_name : option string;
  b_officeId : option string;
  b_isRegisteredOnIGOT : option bool;
  b_coursesEnrolled : option Z;
  b_coursesCompleted : option Z;
  b_reportDate : option Z
}.

Definition truthy_bool (b : option bool) : bool :=
  match b with Some true => true | _ => false end.

(** [req.user.officeId.toString() !== officeId] *)
Definition office_differs (u : user) (officeId : option string) : bool :=
  match officeId with
  | Some o => negb (String.eqb (u_officeId u) o)
  | None => true
  end.

(** The [catch] of [POST /] and [PUT /:id]. *)
Definition validation_catch (err : js_error) : response :=
  match err with
  | ValidationError errs => fail 400 (join ", " errs)
  | _ => fail 500 "Server Error"
  end.

(** The [catch] of [GET /:id]: [err.kind === 'ObjectId'] answers 404. *)
Definition objectid_catch (not_found : string) (err : js_error) : response :=
  match err with
  | CastError k => if String.eqb k "ObjectId" then fail 404 not_found
                   else fail 500 "Server Error"
  | _ => fail 500 "Server Error"
  end.

(** The [catch] of every other route. *)
Definition server_catch (err : js_error) : response := fail 500 "Server Error".

(** The object literal passed to [Employee.create] by [POST /]. *)
Definition employee_draft_of (now : clock) (u : user) (b : employee_body) : employee_draft :=
  let reg := truthy_bool (b_isRegisteredOnIGOT b) in
  mkDraft (b_name b) (b_officeId b) (b_isRegisteredOnIGOT b)
    (if reg then b_coursesEnrolled b else Some 0)
    (if reg then b_coursesCompleted b else Some 0)
    (if truthy_num (b_reportDate b)
     then match b_reportDate b with Some z => z | None => t_route now end
     else t_route now)
    (u_id u).

(** [POST /api/employees] *)
Definition post_employee_body (now : clock) (new_id : string) (u : user)
  (b : employee_body) : M (store employee) response :=
  if negb (is_admin u) && office_differs u (b_officeId b) then
    ret (fail 403 "Not authorized to add employees to this office")
  else
    employee <- Employee_create now new_id (employee_draft_of now u b) ;;
    ret (ok 201 (PEmployee employee)).

Definition post_employee now new_id u b :=
  catch_ (post_employee_body now new_id u b) validation_catch.

(** [GET /api/employees/:id]; [populate] only resolves references for
    display and is not modelled. *)
Definition get_employee_body (u : user) (id : string) : M (store employee) response :=
  employee <- findById id ;;
  match employee with
  | None => ret (fail 404 "Employee not found")
  | Some e =>
      if negb (is_admin u) && negb (String.eqb (u_officeId u) (e_officeId e)) then
        ret (fail 403 "Not authorized to access this employee")
      else ret (ok 200 (PEmployee e))
  end.

Definition get_employee u id :=
  catch_ (get_employee_body u id) (objectid_catch "Employee not found").

Definition employee_or_null (e : option employee) : payload :=
  match e with Some e => PEmployee e | None => PNone end.

(** [PUT /api/employees/:id]; [now] is the time of the request. *)
Definition put_employee_body (now : Z) (u : user) (id : string) (body : update)
  : M (store employee) response :=
  employee <- findById id ;;
  match employee with
  | None => ret (fail 404 "Employee not found")
  | Some e =>
      if e_isFrozen e then
        ret (fail 403 "This record is frozen and cannot be modified")
      else if negb (is_admin u) && negb (String.eqb (u_officeId u) (e_officeId e)) then
        ret (fail 403 "Not authorized to update this employee")
      else
        employee <- Employee_findByIdAndUpdate id body true ;;
        ret (ok 200 (employee_or_null employee))
  end.

Definition put_employee now u id body :=
  catch_ (put_employee_body now u id body) validation_catch.

(** [DELETE /api/employees/:id] *)
Definition delete_employee_body (u : user) (id : string) : M (store employee) response :=
  employee <- findById id ;;
  match employee with
  | None => ret (fail 404 "Employee not found")
  | Some e =>
      if e_isFrozen e then
        ret (fail 403 "This record is frozen and cannot be deleted")
      else if negb (is_admin u) && negb (String.eqb (u_officeId u) (e_officeId e)) then
        ret (fail 403 "Not authorized to delete this employee")
      else
        _ <- findByIdAndDelete id ;;
        ret (ok 200 PEmpty)
  end.

Definition delete_employee u id :=
  catch_ (delete_employee_body u id) server_catch.

(** [PUT /api/employees/freeze/:id] and [/unfreeze/:id] (after [admin]);
    [frozen] is the value written. *)
Definition set_frozen_body (now : Z) (frozen : bool) (id : string)
  : M (store employee) response :=
  employee <- findById id ;;
  match employee with
  | None => ret (fail 404 "Employee not found")
  | Some _ =>
      employee <- Employee_findByIdAndUpdate id (mkUpdate [SetIsFrozen frozen] []) false ;;
      ret (mkResp 200 true
             (Some (if frozen then "Employee record has been frozen"
                    else "Employee record has been unfrozen"))
             (employee_or_null employee))
  end.

Definition put_freeze now id := catch_ (set_frozen_body now true id) server_catch.
Definition put_unfreeze now id := catch_ (set_frozen_body now false id) server_catch.

(** ** JS numbers as IEEE-754 binary64 for the dashboard arithmetic *)

Open Scope float_scope.

(** The JS number holding an integer count (exact below 2^53). *)
Definition float_of_Z (z : Z) : float :=
  SF2Prim (SpecFloat.binary_normalize FloatOps.prec FloatOps.emax z 0 false).

(** Decimal digits of a non-negative integer ([String(n)]). *)
Definition digits (n : Z) : list ascii :=
  list_ascii_of_string (NilZero.string_of_uint (N.to_uint (Z.to_N n))).

(** Steps 10.b of [Number.prototype.toFixed] with [f = 2]: pad [m] with
    leading zeros to at least [f + 1] digits, then insert the point before
    the last [f] digits. *)
Definition fixed2_of_digits (m : list ascii) : list ascii :=
  let m := if (List.length m <=? 2)%nat
           then app (repeat "0"%char (3 - List.length m)) m else m in
  let k := List.length m in
  app (firstn (k - 2) m) ("."%char :: skipn (k - 2) m).

(** [n] such that [n / 100 - |x|] is as close to zero as possible, the
    larger [n] on a tie, for the finite value [m * 2^e]. *)
Definition round_hundredths (m : positive) (e : Z) : Z :=
  if (0 <=? e)%Z then (100 * Zpos m * 2 ^ e)%Z
  else ((200 * Zpos m + 2 ^ (- e)) / 2 ^ (1 - e))%Z.

(** [|x| < 10^21] for the finite value [m * 2^e]. *)
Definition below_1e21 (m : positive) (e : Z) : bool :=
  if (0 <=? e)%Z then (Zpos m * 2 ^ e <? 10 ^ 21)%Z
  else (Zpos m <? 10 ^ 21 * 2 ^ (- e))%Z.

(** Number of decimal digits of a positive integer. *)
Definition ndigits (X : Z) : Z := Z.of_nat (List.length (digits X)).

(** Step 5 of [Number::toString(x)] for a finite [x >= 10^21], whose value
    is the integer [X] with [D] digits, at [k] significant digits: the
    integers [s] with [k] digits (or [10^k]) and [s * 10^(D-k)] rounding to
    [x] are at most the two around [X / 10^(D-k)]; among them the one
    closest to [X], the even one on a tie. *)
Definition shortest_candidate (x : float) (X D k : Z) : option Z :=
  let p := (10 ^ (D - k))%Z in
  let lo := (X / p)%Z in
  let hi := (lo + 1)%Z in
  let round_trips s := PrimFloat.eqb (float_of_Z (s * p)) x in
  match round_trips lo, round_trips hi with
  | true, true =>
      let dl := (X - lo * p)%Z in
      let dh := (hi * p - X)%Z in
      Some (if (dl <? dh)%Z then lo else if (dh <? dl)%Z then hi
            else if Z.even lo then lo else hi)
  | true, false => Some lo
  | false, true => Some hi
  | false, false => None
  end.

(** The least [k] with a candidate, and that candidate; [k = D] always has
    one ([X] itself). *)
Fixpoint shortest_from (x : float) (X D k : Z) (fuel : nat) : Z * Z :=
  match fuel with
  | O => (X, D)
  | S fuel' =>
      match shortest_candidate x X D k with
      | Some s => (s, k)
      | None => shortest_from x X D (k + 1)%Z fuel'
      end
  end.

Fixpoint drop_zeros (l : list ascii) : list ascii :=
  match l with
  | c :: r => if Ascii.eqb c "0"%char then drop_zeros r else l
  | [] => []
  end.

(** The significant digits of [s] and the exponent [n] of
    [s * 10^(n - k)]: a candidate [10^k] is the one digit [1] with [n = D + 1]. *)
Definition significand (X D : Z) (x : float) : list ascii * Z :=
  let '(s, k) := shortest_from x X D 1%Z (Z.to_nat D) in
  let ds := digits s in
  (rev (drop_zeros (rev ds)), (D + (Z.of_nat (List.length ds) - k))%Z).

(** Steps 6-11 of [Number::toString] for [n > 21]: the first digit, a point
    and the other digits if any, then [e+] and [n - 1]. *)
Definition exponent_form (ds : list ascii) (n : Z) : string :=
  string_of_list_ascii
    (app (match ds with
          | [] => []
          | [d] => [d]
          | d :: r => d :: "."%char :: r
          end)
         (app ["e"%char; "+"%char] (digits (n - 1)))).

(** [Number::toString(x)] for a positive finite [x >= 10^21] of integer value [X]. *)
Definition number_toString_large (x : float) (X : Z) : string :=
  let '(ds, n) := significand X (ndigits X) x in exponent_form ds n.

(** [x.toFixed(2)] (ECMA-262 [Number.prototype.toFixed], [f = 2]): a value
    that is not finite, or whose magnitude is at least 10^21, is written by
    [Number::toString]. *)
Definition toFixed2 (x : float) : string :=
  match Prim2SF x with
  | S754_zero _ => "0.00"
  | S754_infinity s => if s then "-Infinity" else "Infinity"
  | S754_nan => "NaN"
  | S754_finite s m e =>
      (if s then "-" else "")
      ++ (if below_1e21 m e
          then string_of_list_ascii (fixed2_of_digits (digits (round_hundredths m e)))
          else number_toString_large (PrimFloat.abs x) (Zpos m * 2 ^ e)%Z)
  end.

(** The rates [toFixed2] writes with two decimals: zero and the finite
    values of magnitude below 10^21. *)
Definition fixed_range (x : float) : bool :=
  match Prim2SF x with
  | S754_zero _ => true
  | S754_finite _ m e => below_1e21 m e
  | _ => false
  end.

(** The documents [Employee.find(query)] returns for the caller:
    [{ officeId: req.user.officeId }] unless admin. *)
Definition visible (u : user) (st : store employee) : list employee :=
  if negb (is_admin u)
  then map snd (filter (fun kd => String.eqb (e_officeId (snd kd)) (u_officeId u)) st)
  else map snd st.

(** The summary computed by [GET /api/employees/dashboard]. *)
Definition dashboard (employees : list employee) : payload :=
  let totalEmployees := Z.of_nat (List.length employees) in
  let registeredOnIGOT :=
    Z.of_nat (List.length (filter (fun emp => e_isRegisteredOnIGOT emp) employees)) in
  let notRegisteredOnIGOT := (totalEmployees - registeredOnIGOT)%Z in
  let totalCoursesEnrolled :=
    fold_left (fun sum emp => sum + float_of_Z (e_coursesEnrolled emp)) employees 0 in
  let totalCoursesCompleted :=
    fold_left (fun sum emp => sum + float_of_Z (e_coursesCompleted emp)) employees 0 in
  let completionRate :=
    if 0 <? totalCoursesEnrolled
    then (totalCoursesCompleted / totalCoursesEnrolled) * 100 else 0 in
  PDashboard totalEmployees registeredOnIGOT notRegisteredOnIGOT
    totalCoursesEnrolled totalCoursesCompleted (toFixed2 completionRate).

Definition get_dashboard_body (u : user) : M (store employee) response :=
  st <- get ;; ret (ok 200 (dashboard (visible u st))).

Definition get_dashboard u := catch_ (get_dashboard_body u) server_catch.

Close Scope float_scope.

(** The dashboard's rate as the spec words it: [100 * completed / enrolled]
    computed exactly on the integer sums and rounded to two decimals
    (half up), for [enrolled > 0]. *)
Definition spec_completion_rate (completed enrolled : Z) : string :=
  string_of_list_ascii
    (fixed2_of_digits (digits ((20000 * completed + enrolled) / (2 * enrolled)))).

(** ** [GET /api/employees/report] *)

Section Report.

(** [new Date(s)]: the timestamp a query string denotes, [None] for an
    Invalid Date (which Mongoose refuses to cast in the filter). *)
Variable parse_date : string -> option Z.

(** The filter object built by the route: an optional
    [reportDate: { $gte, $lte }] and, for non-admins, [officeId]. *)
Record report_query := mkQuery {
  q_reportDate : option (string * string);
  q_officeId : option string
}.

Definition report_query_of (u : user) (startDate endDate : option string)
  : report_query :=
  mkQuery
    (if truthy_str startDate && truthy_str endDate then
       match startDate, endDate with
       | Some s, Some e => Some (s, e)
       | _, _ => None
       end
     else None)
    (if negb (is_admin u) then Some (u_officeId u) else None).

Definition office_matches (q_office : option string) (e : employee) : bool :=
  match q_office with
  | Some o => String.eqb (e_officeId e) o
  | None => true
  end.

Definition in_range (lo hi : Z) (e : employee) : bool :=
  (lo <=? e_reportDate e) && (e_reportDate e <=? hi).

(** [Employee.find(query)] *)
Definition Employee_find (q : report_query) : M (store employee) (list employee) :=
  match q_reportDate q with
  | None =>
      st <- get ;;
      ret (map snd (filter (fun kd => office_matches (q_officeId q) (snd kd)) st))
  | Some (s, e) =>
      match parse_date s, parse_date e with
      | Some lo, Some hi =>
          st <- get ;;
          ret (map snd (filter (fun kd => in_range lo hi (snd kd)
                                          && office_matches (q_officeId q) (snd kd)) st))
      | _, _ => throw (CastError "date")
      end
  end.

Definition get_report_body (u : user) (startDate endDate : option string)
  : M (store employee) response :=
  employees <- Employee_find (report_query_of u startDate endDate) ;;
  ret (ok 200 (PEmployees employees)).

Definition get_report u startDate endDate :=
  catch_ (get_report_body u startDate endDate) server_catch.

End Report.

(** ** models/Office.js and routes/offices.js *)

(** A request body for the office routes: [POST /] reads [name],
    [location] and [description]; [PUT /:id] hands the whole body, which may
    also set the schema paths [createdBy] and [createdAt], to
    [findByIdAndUpdate]. *)
Record office_body := mkOfficeBody {
  ob_name : option string;
  ob_location : option string;
  ob_description : option string;
  ob_createdBy : option string;
  ob_createdAt : option Z
}.

Definition msg_office_name_required := "Please add an office name".
Definition msg_location_required := "Please add a location".

Definition validate_office_name (n : option string) : list string :=
  match n with
  | None => [msg_office_name_required]
  | Some n =>
      if String.eqb n "" then [msg_office_name_required]
      else if (100 <? String.length n)%nat then [msg_name_length] else []
  end.

Definition validate_location (l : option string) : list string :=
  match l with
  | Some l => if String.eqb l "" then [msg_location_required] else []
  | None => [msg_location_required]
  end.

(** [new Office(b).validate()]; the string setters trim first. *)
Definition validate_office (b : office_body) : list string :=
  app (validate_office_name (option_map trim (ob_name b)))
      (validate_location (option_map trim (ob_location b))).

(** [Office.create(b)] *)
Definition Office_create (now : Z) (new_id : string) (createdBy : string)
  (b : office_body) : M (store office) office :=
  match validate_office b with
  | [] =>
      let o := mkOffice (match ob_name b with Some n => trim n | None => "" end)
                 (match ob_location b with Some l => trim l | None => "" end)
                 (option_map trim (ob_description b)) createdBy now in
      st <- get ;; _ <- put (app st [(new_id, o)]) ;; ret o
  | errs => throw (ValidationError errs)
  end.

(** [POST /api/offices] (after [admin]) *)
Definition post_office_body (now : Z) (new_id : string) (u : user) (b : office_body)
  : M (store office) response :=
  office <- Office_create now new_id (u_id u)
              (mkOfficeBody (ob_name b) (ob_location b) (ob_description b) None None) ;;
  ret (ok 201 (POffice office)).

Definition post_office now new_id u b :=
  catch_ (post_office_body now new_id u b) validation_catch.

(** [GET /api/offices/:id] *)
Definition get_office_body (u : user) (id : string) : M (store office) response :=
  office <- findById id ;;
  match office with
  | None => ret (fail 404 "Office not found")
  | Some o =>
      if negb (is_admin u) && negb (String.eqb (u_officeId u) id) then
        ret (fail 403 "Not authorized to access this office")
      else ret (ok 200 (POffice o))
  end.

Definition get_office u id :=
  catch_ (get_office_body u id) (objectid_catch "Office not found").

(** [Office.findByIdAndUpdate(id, b, { new: true, runValidators: true })]:
    cast the id and the update ([createdBy] must cast to an ObjectId), run
    the update validators on the keys present in [b] (errors in reverse key
    order, as for employees), then write. *)
Definition Office_findByIdAndUpdate (id : string) (b : office_body)
  : M (store office) (option office) :=
  if negb (is_object_id id) then throw (CastError "ObjectId") else
  if negb (match ob_createdBy b with Some c => is_object_id c | None => true end)
  then throw (CastError "ObjectId") else
  match rev (app (match ob_name b with
                  | Some n => validate_office_name (Some (trim n)) | None => [] end)
                 (match ob_location b with
                  | Some l => validate_location (Some (trim l)) | None => [] end)) with
  | [] =>
      st <- get ;;
      match lookup st id with
      | None => ret None
      | Some o =>
          let o' := mkOffice
                      (match ob_name b with Some n => trim n | None => o_name o end)
                      (match ob_location b with Some l => trim l | None => o_location o end)
                      (match ob_description b with
                       | Some d => Some (trim d) | None => o_description o end)
                      (match ob_createdBy b with
                       | Some c => lower_hex c | None => o_createdBy o end)
                      (match ob_createdAt b with Some t => t | None => o_createdAt o end) in
          _ <- put (replace st id o') ;; ret (Some o')
      end
  | errs => throw (ValidationError errs)
  end.

Definition office_or_null (o : option office) : payload :=
  match o with Some o => POffice o | None => PNone end.

(** [PUT /api/offices/:id] (after [admin]) *)
Definition put_office_body (id : string) (b : office_body) : M (store office) response :=
  office <- findById id ;;
  match office with
  | None => ret (fail 404 "Office not found")
  | Some _ =>
      office <- Office_findByIdAndUpdate id b ;;
      ret (ok 200 (office_or_null office))
  end.

Definition put_office id b := catch_ (put_office_body id b) validation_catch.

(** [DELETE /api/offices/:id] (after [admin]) *)
Definition delete_office_body (id : string) : M (store office) response :=
  office <- findById id ;;
  match office with
  | None => ret (fail 404 "Office not found")
  | Some _ => _ <- findByIdAndDelete id ;; ret (ok 200 PEmpty)
  end.

Definition delete_office id := catch_ (delete_office_body id) server_catch.

(** ** The list routes: [res.json({ success: true, count, data })] *)

Inductive listing :=
| LEmployees (count : Z) (es : list employee)
| LOffices (count : Z) (os : list office).

Record list_response := mkListResp {
  l_status : Z;
  l_success : bool;
  l_message : option string;
  l_data : option listing
}.

(** The [catch] of the list routes. *)
Definition catch_list {S} (body : M S list_response) (s : S) : list_response * S :=
  match body s with
  | (inl _, s') => (mkListResp 500 false (Some "Server Error") None, s')
  | (inr r, s') => (r, s')
  end.

(** [GET /api/employees]: the query of [visible] ([populate] is display only). *)
Definition get_employees_body (u : user) : M (store employee) list_response :=
  st <- get ;;
  let employees := visible u st in
  ret (mkListResp 200 true None
         (Some (LEmployees (Z.of_nat (List.length employees)) employees))).

Definition get_employees u := catch_list (get_employees_body u).

(** [GET /api/offices]: [Office.find({ _id: req.user.officeId })] unless admin. *)
Definition get_offices_body (u : user) : M (store office) list_response :=
  st <- get ;;
  let offices :=
    if negb (is_admin u)
    then map snd (filter (fun kd => String.eqb (fst kd) (u_officeId u)) st)
    else map snd st in
  ret (mkListResp 200 true None
         (Some (LOffices (Z.of_nat (List.length offices)) offices))).

Definition get_offices u := catch_list (get_offices_body u).

(** * Properties *)

(** C2: a frozen employee record is refused to every caller by [PUT /:id]
    and [DELETE /:id] with 403, and the store is left as it was. *)
Theorem frozen_blocks_update_and_delete :
  forall now (u : user) id body (st : store employee) e,
    is_object_id id = true -> lookup st id = Some e -> e_isFrozen e = true ->
    put_employee now u id body st
      = (fail 403 "This record is frozen and cannot be modified", st)
    /\ delete_employee u id st
      = (fail 403 "This record is frozen and cannot be deleted", st).
Proof.
  intros now u id body st e Hid Hl Hf.
  unfold put_employee, delete_employee, catch_, put_employee_body,
    delete_employee_body, findById, bind, get, ret.
  rewrite Hid, Hl, Hf. split; reflexivity.
Qed.

(** C10: the freeze check comes before the office check in [PUT /:id] and
    [DELETE /:id]: a non-admin of another office gets the frozen message on
    a frozen record, and would get the not-authorized message on the same
    record unfrozen. *)
Theorem frozen_check_precedes_ownership :
  forall now (u : user) id body (st : store employee) e,
    is_object_id id = true -> lookup st id = Some e ->
    is_admin u = false -> String.eqb (u_officeId u) (e_officeId e) = false ->
    (e_isFrozen e = true ->
       message (fst (put_employee now u id body st))
         = Some "This record is frozen and cannot be modified"
       /\ message (fst (delete_employee u id st))
         = Some "This record is frozen and cannot be deleted")
    /\ (e_isFrozen e = false ->
       message (fst (put_employee now u id body st))
         = Some "Not authorized to update this employee"
       /\ message (fst (delete_employee u id st))
         = Some "Not authorized to delete this employee").
Proof.
  intros now u id body st e Hid Hl Ha Ho.
  unfold put_employee, delete_employee, catch_, put_employee_body,
    delete_employee_body, findById, bind, get, ret.
  rewrite Hid, Hl, Ha, Ho.
  split; intros Hf; rewrite Hf; split; reflexivity.
Qed.

(** C3: an employee created with [isRegisteredOnIGOT] false or absent is
    stored with [coursesEnrolled = 0] and [coursesCompleted = 0], whatever
    counts the body carries. *)
Theorem create_unregistered_zero_counts :
  forall now new_id (u : user) (b : employee_body) (st : store employee) r st',
    (b_isRegisteredOnIGOT b = None \/ b_isRegisteredOnIGOT b = Some false) ->
    post_employee now new_id u b st = (r, st') -> success r = true ->
    exists e, data r = PEmployee e /\ st' = app st [(new_id, e)]
      /\ e_isRegisteredOnIGOT e = false
      /\ e_coursesEnrolled e = 0 /\ e_coursesCompleted e = 0.
Proof.
  intros now new_id u b st r st' Hreg Hpost Hs.
  unfold post_employee, catch_, post_employee_body in Hpost.
  destruct (negb (is_admin u) && office_differs u (b_officeId b)).
  { cbn in Hpost. injection Hpost as <- <-. discriminate. }
  unfold bind, Employee_create in Hpost.
  destruct (validate_employee (employee_draft_of now u b)) eqn:Hv.
  - cbn in Hpost. injection Hpost as <- <-.
    eexists. split; [reflexivity|]. split; [reflexivity|].
    unfold employee_draft_of, doc_isRegisteredOnIGOT, doc_coursesEnrolled,
      doc_coursesCompleted, truthy_bool; cbn.
    destruct Hreg as [-> | ->]; cbn; auto.
  - cbn in Hpost. injection Hpost as <- <-. discriminate.
Qed.

(** C8: with both dates given (and both valid dates), the report is exactly
    the caller's visible records whose [reportDate] lies in the closed range
    [[new Date(startDate), new Date(endDate)]], in store order. *)
Theorem report_inclusive_range :
  forall parse_date (u : user) startDate endDate lo hi (st : store employee),
    startDate <> "" -> endDate <> "" ->
    parse_date startDate = Some lo -> parse_date endDate = Some hi ->
    exists es,
      get_report parse_date u (Some startDate) (Some endDate) st
        = (ok 200 (PEmployees es), st)
      /\ es = filter (fun e => (lo <=? e_reportDate e) && (e_reportDate e <=? hi))
                     (visible u st)
      /\ (forall x, In x es <->
            In x (visible u st) /\ lo <= e_reportDate x /\ e_reportDate x <= hi).
Proof.
  intros parse_date u sd ed lo hi st Hs He Hlo Hhi.
  unfold get_report, catch_, get_report_body, Employee_find, report_query_of,
    truthy_str, bind, get, ret.
  apply String.eqb_neq in Hs, He. rewrite Hs, He. cbn [negb andb q_reportDate q_officeId].
  rewrite Hlo, Hhi.
  set (es := map snd (filter (fun kd => in_range lo hi (snd kd)
               && office_matches (if negb (is_admin u) then Some (u_officeId u) else None)
                    (snd kd)) st)).
  assert (Hes : es = filter (fun e => (lo <=? e_reportDate e) && (e_reportDate e <=? hi))
                            (visible u st)).
  { subst es. unfold visible, office_matches, in_range.
    destruct (negb (is_admin u)); induction st as [|[k d] r IH]; cbn; auto.
    - destruct (String.eqb (e_officeId d) (u_officeId u)) eqn:E;
        destruct ((lo <=? e_reportDate d) && (e_reportDate d <=? hi)) eqn:R;
        cbn; rewrite ?E, ?R; cbn; try rewrite ?R; f_equal; auto.
    - rewrite andb_true_r.
      destruct ((lo <=? e_reportDate d) && (e_reportDate d <=? hi)) eqn:R;
        cbn; f_equal; auto. }
  exists es. split; [reflexivity|]. split; [exact Hes|].
  intros x. rewrite Hes, filter_In, andb_true_iff, Z.leb_le, Z.leb_le. tauto.
Qed.

(** C9: when either date is absent or empty no date filter is applied: the
    report is the one obtained with neither date. *)
Theorem report_one_date_no_filter :
  forall parse_date (u : user) startDate endDate (st : store employee),
    truthy_str startDate = false \/ truthy_str endDate = false ->
    get_report parse_date u startDate endDate st = get_report parse_date u None None st.
Proof.
  intros parse_date u sd ed st H.
  unfold get_report, get_report_body, report_query_of.
  replace (truthy_str sd && truthy_str ed) with false
    by (destruct H as [-> | ->]; [reflexivity | symmetry; apply andb_false_r]).
  reflexivity.
Qed.

(** ** Concrete requests *)

(** A request served at 2000 ms whose save hook runs at 2001 ms. *)
Definition clk : clock := mkClock 2000 2000 2001.

Definition oid_office_a := "aaaaaaaaaaaaaaaaaaaaaaaa".
Definition oid_office_b := "bbbbbbbbbbbbbbbbbbbbbbbb".
Definition oid_user := "cccccccccccccccccccccccc".
Definition oid_emp := "eeeeeeeeeeeeeeeeeeeeeeee".

Definition admin_user := mkUser oid_user "admin" oid_office_a.
Definition member_a := mkUser oid_user "user" oid_office_a.

(** A registered employee created at time 1000 with the given counts. *)
Definition emp_with (enrolled completed : Z) : employee :=
  mkEmployee "Jo" oid_office_a true enrolled completed 1000 false oid_user 1000 1000.

Definition counts (st : store employee) : option (Z * Z) :=
  option_map (fun e => (e_coursesEnrolled e, e_coursesCompleted e)) (lookup st oid_emp).

(** C1: [PUT /:id] accepts updates that leave [coursesCompleted] above
    [coursesEnrolled]: an [$inc] of [coursesCompleted] (update validators
    skip [$inc]) and a [$set] of [coursesEnrolled] to 0 alone (the
    validator of [coursesCompleted] only runs on its own path). *)
Lemma update_breaks_completed_le_enrolled :
  let '(r1, st1) := put_employee 2000 admin_user oid_emp
                      (mkUpdate [] [IncCoursesCompleted 10]) [(oid_emp, emp_with 0 0)] in
  let '(r2, st2) := put_employee 2000 admin_user oid_emp
                      (mkUpdate [SetCoursesEnrolled 0] []) [(oid_emp, emp_with 5 3)] in
  status r1 = 200 /\ success r1 = true /\ counts st1 = Some (0, 10)
  /\ status r2 = 200 /\ success r2 = true /\ counts st2 = Some (0, 3).
Proof. vm_compute. repeat split. Qed.

Definition updatedAt_of (st : store employee) : option Z :=
  option_map e_updatedAt (lookup st oid_emp).

(** C4: [PUT /:id], [PUT /freeze/:id] and [PUT /unfreeze/:id] at time 2000
    on a record saved at time 1000 succeed and leave [updatedAt] at 1000;
    only creation (the [pre('save')] hook) sets it. *)
Lemma updates_keep_updatedAt :
  let '(r1, st1) := put_employee 2000 admin_user oid_emp
                      (mkUpdate [SetName "Jo B"] []) [(oid_emp, emp_with 5 3)] in
  let '(r2, st2) := put_freeze 2000 oid_emp [(oid_emp, emp_with 5 3)] in
  let '(r3, st3) := put_unfreeze 2000 oid_emp st2 in
  success r1 = true /\ updatedAt_of st1 = Some 1000
  /\ success r2 = true /\ updatedAt_of st2 = Some 1000
  /\ success r3 = true /\ updatedAt_of st3 = Some 1000.
Proof. vm_compute. repeat split. Qed.

Definition bad_id := "abc".

(** C5: with the malformed id ["abc"], [GET /employees/:id] and
    [GET /offices/:id] answer 404, while the update, delete, freeze and
    unfreeze routes of employees and the update and delete routes of offices
    answer 500. *)
Lemma malformed_id_statuses :
  forall (est : store employee) (ost : store office) ob body,
    status (fst (get_employee admin_user bad_id est)) = 404
    /\ status (fst (get_office admin_user bad_id ost)) = 404
    /\ status (fst (put_employee 2000 admin_user bad_id body est)) = 500
    /\ status (fst (delete_employee admin_user bad_id est)) = 500
    /\ status (fst (put_freeze 2000 bad_id est)) = 500
    /\ status (fst (put_unfreeze 2000 bad_id est)) = 500
    /\ status (fst (put_office bad_id ob ost)) = 500
    /\ status (fst (delete_office bad_id ost)) = 500.
Proof. intros. repeat split. Qed.

(** ** Validation order in [POST /] (C6) *)

(** A body with no name, a malformed officeId and more courses completed
    than enrolled. *)
Definition body_invalid (officeId : string) : employee_body :=
  mkBody None (Some officeId) (Some true) (Some 1) (Some 4) None.





(** ** Dashboard (C7) *)

Lemma list_ascii_of_string_app (s1 s2 : string) :
  list_ascii_of_string (s1 ++ s2) = app (list_ascii_of_string s1) (list_ascii_of_string s2).
Proof. induction s1 as [|c r IH]; cbn; [reflexivity | now rewrite IH]. Qed.

Lemma string_of_list_ascii_app (l1 l2 : list ascii) :
  string_of_list_ascii (app l1 l2) = string_of_list_ascii l1 ++ string_of_list_ascii l2.
Proof. induction l1 as [|c r IH]; cbn; [reflexivity | now rewrite IH]. Qed.

Lemma fixed2_of_digits_shape (m : list ascii) :
  exists a b, fixed2_of_digits m = app a ("."%char :: b) /\ List.length b = 2%nat.
Proof.
  unfold fixed2_of_digits.
  set (m' := if (List.length m <=? 2)%nat
             then app (repeat "0"%char (3 - List.length m)) m else m).
  assert (Hlen : (3 <= List.length m')%nat).
  { subst m'. destruct (Nat.leb_spec (List.length m) 2).
    - rewrite length_app, repeat_length. lia.
    - lia. }
  exists (firstn (List.length m' - 2) m'), (skipn (List.length m' - 2) m').
  split; [reflexivity|]. rewrite length_skipn. lia.
Qed.

(** [toFixed2] writes zero and every finite value below 10^21 in magnitude
    with exactly two digits after the point. *)
Lemma toFixed2_shape (x : float) :
  fixed_range x = true ->
  exists a b, list_ascii_of_string (toFixed2 x) = app a ("."%char :: b)
              /\ List.length b = 2%nat.
Proof.
  unfold fixed_range, toFixed2. destruct (Prim2SF x) as [s| s | | s m e]; try discriminate.
  - intros _. exists ["0"%char], ["0"%char; "0"%char]. split; reflexivity.
  - intros Hb. rewrite Hb, list_ascii_of_string_app, list_ascii_of_string_of_list_ascii.
    destruct (fixed2_of_digits_shape (digits (round_hundredths m e))) as (a & b & -> & Hl).
    exists (app (list_ascii_of_string (if s then "-" else "")) a), b.
    split; [now rewrite <- app_assoc | exact Hl].
Qed.

(** Larger finite values are written in exponent form [d[.ddd]e+n]. *)
Lemma toFixed2_large (x : float) s m e :
  Prim2SF x = S754_finite s m e -> below_1e21 m e = false ->
  exists mant exp, toFixed2 x = (if s then "-" else "") ++ mant ++ "e+" ++ exp.
Proof.
  intros Hx Hb. unfold toFixed2. rewrite Hx, Hb.
  unfold number_toString_large.
  destruct (significand _ _ _) as [ds n].
  unfold exponent_form. rewrite !string_of_list_ascii_app.
  eexists _, _. reflexivity.
Qed.

(** A body that the validators accept, with an extreme negative
    [coursesCompleted]: [{ name: "Jo", officeId, isRegisteredOnIGOT: true,
    coursesEnrolled: 1, coursesCompleted: -1e19 }]. *)
Definition body_extreme : employee_body :=
  mkBody (Some "Jo") (Some oid_office_a) (Some true) (Some 1)
    (Some (-10000000000000000000)) None.

Definition dashboard_rate (p : payload) : option string :=
  match p with
  | PDashboard _ _ _ _ _ rate => Some rate
  | _ => None
  end.

(** C7 (as stated, refuted): one visible record with 23 of 160 courses
    completed. The exact rate 14.375 rounds to 14.38, but the route computes
    [(23 / 160) * 100] in binary64, just below 14.375, and renders "14.37".
    And a record the validators accept with 1 course enrolled and -1e19
    completed gives the rate -1e21, which [toFixed(2)] writes "-1e+21",
    without two decimals. *)
Lemma dashboard_rate_float_rounding :
  dashboard [emp_with 160 23]
    = PDashboard 1 1 0 (float_of_Z 160) (float_of_Z 23) "14.37"
  /\ spec_completion_rate 23 160 = "14.38"
  /\ success (fst (post_employee clk oid_emp admin_user body_extreme [])) = true
  /\ dashboard_rate (data (fst (get_dashboard admin_user
                         (snd (post_employee clk oid_emp admin_user body_extreme [])))))
     = Some "-1e+21".
Proof. vm_compute. repeat split. Qed.

(** C7 (amended): registered + not registered = total; the rate is "0.00"
    when the enrolled sum is not positive (in particular 0); otherwise it is
    [toFixed(2)] of the binary64 value [x = (completed / enrolled) * 100].
    When [x] is zero or finite below 10^21 in magnitude, the rate has exactly
    two digits after the point; a finite [x] of magnitude at least 10^21 is
    written in exponent form, and a non-finite one as "Infinity",
    "-Infinity" or "NaN". *)
Theorem dashboard_summary :
  forall (employees : list employee),
    match dashboard employees with
    | PDashboard total registered notRegistered enrolled completed rate =>
        let x := if PrimFloat.ltb 0 enrolled
                 then ((completed / enrolled) * 100)%float else 0%float in
        (registered + notRegistered = total)%Z
        /\ (PrimFloat.ltb 0 enrolled = false -> rate = "0.00")
        /\ rate = toFixed2 x
        /\ (fixed_range x = true ->
              exists a b, list_ascii_of_string rate = app a ("."%char :: b)
                          /\ List.length b = 2%nat)
        /\ (forall s m e, Prim2SF x = S754_finite s m e -> below_1e21 m e = false ->
              exists mant exp, rate = (if s then "-" else "") ++ mant ++ "e+" ++ exp)
        /\ (forall s, Prim2SF x = S754_infinity s ->
              rate = if s then "-Infinity" else "Infinity")
        /\ (Prim2SF x = S754_nan -> rate = "NaN")
    | _ => False
    end.
Proof.
  intros employees. unfold dashboard. cbv zeta.
  split; [lia|]. split; [|split; [reflexivity|split; [|split; [|split]]]].
  - intros H. rewrite H. vm_compute. reflexivity.
  - apply toFixed2_shape.
  - intros s m e. apply toFixed2_large.
  - intros s Hx. unfold toFixed2. now rewrite Hx.
  - intros Hx. unfold toFixed2. now rewrite Hx.
Qed.

Lemma dashboard_summary_witness :
  PrimFloat.ltb 0 (float_of_Z 160) = true
  /\ toFixed2 ((float_of_Z 23 / float_of_Z 160) * 100)%float = "14.37"
  /\ exists a b, list_ascii_of_string "14.37" = app a ("."%char :: b)
                 /\ List.length b = 2%nat.
Proof.
  pose proof (dashboard_summary [emp_with 160 23]) as H.
  change (dashboard [emp_with 160 23])
    with (PDashboard 1 1 0 (float_of_Z 160) (float_of_Z 23)
            (toFixed2 (if PrimFloat.ltb 0 (float_of_Z 160)
                       then ((float_of_Z 23 / float_of_Z 160) * 100)%float
                       else 0%float))) in H.
  cbv zeta in H. destruct H as (_ & _ & _ & Hshape & _).
  assert (Hpos : PrimFloat.ltb 0 (float_of_Z 160) = true) by (vm_compute; reflexivity).
  assert (Hr : toFixed2 ((float_of_Z 23 / float_of_Z 160) * 100)%float = "14.37")
    by (vm_compute; reflexivity).
  split; [exact Hpos|]. split; [exact Hr|].
  rewrite Hpos, Hr in Hshape. apply Hshape. vm_compute. reflexivity.
Defined.

(** ** Witnesses of the hypotheses of the confirmed properties *)

Definition frozen_emp : employee :=
  mkEmployee "Jo" oid_office_b true 5 3 1000 true oid_user 1000 1000.

Lemma frozen_blocks_update_and_delete_witness :
  is_object_id oid_emp = true /\ lookup [(oid_emp, frozen_emp)] oid_emp = Some frozen_emp
  /\ put_employee 2000 admin_user oid_emp (mkUpdate [SetIsFrozen false] [])
       [(oid_emp, frozen_emp)]
     = (fail 403 "This record is frozen and cannot be modified", [(oid_emp, frozen_emp)]).
Proof.
  split; [reflexivity|]. split; [reflexivity|].
  apply (proj1 (frozen_blocks_update_and_delete 2000 admin_user oid_emp
                  (mkUpdate [SetIsFrozen false] []) [(oid_emp, frozen_emp)] frozen_emp
                  eq_refl eq_refl eq_refl)).
Defined.

Lemma frozen_check_precedes_ownership_witness :
  message (fst (delete_employee member_a oid_emp [(oid_emp, frozen_emp)]))
    = Some "This record is frozen and cannot be deleted".
Proof.
  apply (proj2 (proj1 (frozen_check_precedes_ownership 2000 member_a oid_emp
                         (mkUpdate [] []) [(oid_emp, frozen_emp)] frozen_emp
                         eq_refl eq_refl eq_refl eq_refl) eq_refl)).
Defined.

(** The spec's scenario: [{ name: "Jo", officeId, isRegisteredOnIGOT: false,
    coursesEnrolled: 5 }]. *)
Definition body_jo : employee_body :=
  mkBody (Some "Jo") (Some oid_office_a) (Some false) (Some 5) None None.

Lemma create_unregistered_zero_counts_witness :
  exists e, data (fst (post_employee clk oid_emp admin_user body_jo []))
              = PEmployee e
    /\ e_coursesEnrolled e = 0 /\ e_coursesCompleted e = 0.
Proof.
  destruct (create_unregistered_zero_counts clk oid_emp admin_user body_jo []
              (fst (post_employee clk oid_emp admin_user body_jo []))
              (snd (post_employee clk oid_emp admin_user body_jo []))
              (or_intror eq_refl) eq_refl eq_refl)
    as (e & Hd & _ & _ & He & Hc).
  exists e. split; [exact Hd|]. split; [exact He | exact Hc].
Defined.

(** [new Date("2024-01-01")] and [new Date("2024-01-31")] (UTC midnight). *)
Definition parse_jan (s : string) : option Z :=
  if String.eqb s "2024-01-01" then Some 1704067200000
  else if String.eqb s "2024-01-31" then Some 1706659200000 else None.

Definition report_store : store employee :=
  [("eeeeeeeeeeeeeeeeeeeeeee1", mkEmployee "A" oid_office_a true 1 0 1704067200000 false oid_user 0 0);
   ("eeeeeeeeeeeeeeeeeeeeeee2", mkEmployee "B" oid_office_a true 1 0 1706659200000 false oid_user 0 0);
   ("eeeeeeeeeeeeeeeeeeeeeee3", mkEmployee "C" oid_office_a true 1 0 1706659200001 false oid_user 0 0);
   ("eeeeeeeeeeeeeeeeeeeeeee4", mkEmployee "D" oid_office_b true 1 0 1705000000000 false oid_user 0 0)].

Lemma report_inclusive_range_witness :
  exists es,
    get_report parse_jan member_a (Some "2024-01-01") (Some "2024-01-31") report_store
      = (ok 200 (PEmployees es), report_store)
    /\ map e_name es = ["A"; "B"].
Proof.
  destruct (report_inclusive_range parse_jan member_a "2024-01-01" "2024-01-31"
              1704067200000 1706659200000 report_store
              ltac:(discriminate) ltac:(discriminate) eq_refl eq_refl)
    as (es & Hr & Hes & _).
  exists es. split; [exact Hr|]. rewrite Hes. vm_compute. reflexivity.
Defined.

Lemma report_one_date_no_filter_witness :
  get_report parse_jan member_a (Some "2024-01-01") None report_store
    = get_report parse_jan member_a None None report_store.
Proof.
  apply (report_one_date_no_filter parse_jan member_a (Some "2024-01-01") None
           report_store (or_intror eq_refl)).
Defined.

(** * Further properties of the routes *)

(** Steps through a route: unfolds the monad and splits on every test. *)
Ltac split_innermost x :=
  lazymatch x with
  | context [match _ with _ => _ end] => fail
  | _ => destruct x eqn:?
  end.

Ltac route_cases :=
  repeat (cbv beta iota zeta delta [bind get put ret throw catch_ catch_list fst snd] in *;
          match goal with
          | |- context [if ?c then _ else _] => split_innermost c
          | |- context [match ?x with _ => _ end] => split_innermost x
          end).

Lemma in_map_snd_filter_snd {D} (p : D -> bool) (st : store D) x :
  In x (map snd (filter (fun kd => p (snd kd)) st)) <-> In x (map snd st) /\ p x = true.
Proof.
  rewrite !in_map_iff. split.
  - intros [[k d] [Hx Hin]]. apply filter_In in Hin as [Hin Hp].
    cbn in *; subst. split; [exists (k, x); auto | exact Hp].
  - intros [[[k d] [Hx Hin]] Hp]. cbn in *; subst.
    exists (k, x). split; [reflexivity|]. apply filter_In; auto.
Qed.

(** [GET /api/employees] lists, with their count, the stored employees an
    admin sees all of and a non-admin sees those of their own office. *)
Theorem get_employees_scoped (u : user) (st : store employee) :
  exists es,
    get_employees u st
      = (mkListResp 200 true None (Some (LEmployees (Z.of_nat (List.length es)) es)), st)
    /\ (forall x, In x es <->
          In x (map snd st) /\ (is_admin u = true \/ e_officeId x = u_officeId u)).
Proof.
  exists (visible u st). split; [reflexivity|]. intros x.
  unfold visible. destruct (is_admin u) eqn:Ha; cbn [negb].
  - tauto.
  - rewrite (in_map_snd_filter_snd (fun e => String.eqb (e_officeId e) (u_officeId u))).
    rewrite String.eqb_eq. intuition discriminate.
Qed.

Lemma filter_key_absent {D} (st : store D) id :
  ~ In id (map fst st) -> filter (fun kd => String.eqb (fst kd) id) st = [].
Proof.
  induction st as [|[k d] r IH]; cbn; intros H; auto.
  destruct (String.eqb k id) eqn:E.
  - apply String.eqb_eq in E. subst. tauto.
  - apply IH. tauto.
Qed.

Lemma filter_key_nodup {D} (st : store D) id :
  NoDup (map fst st) ->
  map snd (filter (fun kd => String.eqb (fst kd) id) st)
  = match lookup st id with Some d => [d] | None => [] end.
Proof.
  induction st as [|[k d] r IH]; cbn; intros Hnd; auto.
  inversion Hnd as [|? ? Hk Hr]; subst.
  destruct (String.eqb k id) eqn:E; cbn.
  - apply String.eqb_eq in E. subst. now rewrite filter_key_absent.
  - auto.
Qed.

(** [GET /api/offices] gives a non-admin at most one office, the one whose
    id is their own officeId, when office ids are unique. *)
Theorem get_offices_own_only (u : user) (st : store office) :
  is_admin u = false -> NoDup (map fst st) ->
  exists os,
    get_offices u st
      = (mkListResp 200 true None (Some (LOffices (Z.of_nat (List.length os)) os)), st)
    /\ os = match lookup st (u_officeId u) with Some o => [o] | None => [] end.
Proof.
  intros Ha Hnd. eexists. split.
  - unfold get_offices, catch_list, get_offices_body, bind, get, ret.
    rewrite Ha. reflexivity.
  - now apply filter_key_nodup.
Qed.

Definition office_hq : office := mkOffice "HQ" "City A" None oid_user 0.
Definition office_branch : office := mkOffice "Branch" "City B" None oid_user 0.

Lemma get_offices_own_only_witness :
  exists os,
    get_offices member_a [(oid_office_a, office_hq); (oid_office_b, office_branch)]
      = (mkListResp 200 true None (Some (LOffices (Z.of_nat (List.length os)) os)),
         [(oid_office_a, office_hq); (oid_office_b, office_branch)])
    /\ os = [office_hq].
Proof.
  destruct (get_offices_own_only member_a
              [(oid_office_a, office_hq); (oid_office_b, office_branch)] eq_refl
              ltac:(repeat constructor; cbn; intuition discriminate))
    as (os & H & Hos).
  exists os. split; [exact H | exact Hos].
Defined.

(** The read routes never change the store. *)
Theorem reads_keep_store :
  forall parse_date (u : user) id startDate endDate
         (st : store employee) (ost : store office),
    snd (get_employees u st) = st
    /\ snd (get_employee u id st) = st
    /\ snd (get_dashboard u st) = st
    /\ snd (get_report parse_date u startDate endDate st) = st
    /\ snd (get_offices u ost) = ost
    /\ snd (get_office u id ost) = ost.
Proof.
  intros. unfold get_employees, get_employee, get_dashboard, get_report,
    get_offices, get_office, get_employees_body, get_employee_body,
    get_dashboard_body, get_report_body, get_offices_body, get_office_body,
    Employee_find, findById.
  repeat split; route_cases; reflexivity.
Qed.

(** A request to a writing route that fails (403, 404, 400 or 500) leaves
    the store unchanged: every check and validation runs before the write. *)
Theorem failed_writes_keep_store :
  forall now (t : Z) new_id (u : user) id (b : employee_body) (body : update)
         (ob : office_body) (st : store employee) (ost : store office),
    (success (fst (post_employee now new_id u b st)) = false ->
       snd (post_employee now new_id u b st) = st)
    /\ (success (fst (put_employee t u id body st)) = false ->
       snd (put_employee t u id body st) = st)
    /\ (success (fst (delete_employee u id st)) = false ->
       snd (delete_employee u id st) = st)
    /\ (success (fst (put_freeze t id st)) = false -> snd (put_freeze t id st) = st)
    /\ (success (fst (put_unfreeze t id st)) = false -> snd (put_unfreeze t id st) = st)
    /\ (success (fst (post_office t new_id u ob ost)) = false ->
       snd (post_office t new_id u ob ost) = ost)
    /\ (success (fst (put_office id ob ost)) = false -> snd (put_office id ob ost) = ost)
    /\ (success (fst (delete_office id ost)) = false -> snd (delete_office id ost) = ost).
Proof.
  intros. unfold post_employee, put_employee, delete_employee, put_freeze,
    put_unfreeze, post_office, put_office, delete_office, post_employee_body,
    put_employee_body, delete_employee_body, set_frozen_body, post_office_body,
    put_office_body, delete_office_body, Employee_create, Employee_findByIdAndUpdate,
    Office_create, Office_findByIdAndUpdate, findById, findByIdAndDelete.
  repeat split; route_cases; cbn; first [reflexivity | discriminate].
Qed.

Lemma failed_writes_keep_store_witness :
  success (fst (post_employee clk oid_emp member_a (body_invalid oid_office_b)
                  [(oid_emp, emp_with 5 3)])) = false
  /\ snd (post_employee clk oid_emp member_a (body_invalid oid_office_b)
            [(oid_emp, emp_with 5 3)]) = [(oid_emp, emp_with 5 3)].
Proof.
  split; [reflexivity|].
  apply (proj1 (failed_writes_keep_store clk 2000 oid_emp member_a oid_emp
                  (body_invalid oid_office_b) (mkUpdate [] [])
                  (mkOfficeBody None None None None None) [(oid_emp, emp_with 5 3)] []));
    reflexivity.
Defined.

Lemma post_employee_success :
  forall now new_id (u : user) (b : employee_body) (st : store employee),
    success (fst (post_employee now new_id u b st)) = true ->
    let d := employee_draft_of now u b in
    let e := mkEmployee
               (match doc_name d with Some n => n | None => "" end)
               (match b_officeId b with Some o => lower_hex o | None => "" end)
               (doc_isRegisteredOnIGOT d) (doc_coursesEnrolled d) (doc_coursesCompleted d)
               (d_reportDate d) false (u_id u) (t_build now) (t_save now) in
    (is_admin u = true \/ office_differs u (b_officeId b) = false)
    /\ validate_employee d = []
    /\ post_employee now new_id u b st = (ok 201 (PEmployee e), app st [(new_id, e)]).
Proof.
  intros now new_id u b st.
  unfold post_employee, catch_, post_employee_body.
  destruct (is_admin u) eqn:Ha, (office_differs u (b_officeId b)) eqn:Ho; cbn [negb andb];
    unfold bind, Employee_create;
    try (cbn; discriminate);
    destruct (validate_employee (employee_draft_of now u b)) eqn:Hv; cbn;
    try discriminate; intros _; auto.
Qed.

Lemma is_hex_lower_hex_char (c : ascii) : is_hex (lower_hex_char c) = is_hex c.
Proof. destruct c as [[] [] [] [] [] [] [] []]; reflexivity. Qed.

Lemma length_string_of_list_ascii (l : list ascii) :
  String.length (string_of_list_ascii l) = List.length l.
Proof. induction l as [|c r IH]; cbn; congruence. Qed.

Lemma length_list_ascii_of_string (s : string) :
  List.length (list_ascii_of_string s) = String.length s.
Proof. induction s as [|c r IH]; cbn; congruence. Qed.

Lemma is_object_id_lower_hex (s : string) : is_object_id (lower_hex s) = is_object_id s.
Proof.
  unfold is_object_id, lower_hex.
  rewrite length_string_of_list_ascii, length_map, length_list_ascii_of_string,
    list_ascii_of_string_of_list_ascii.
  f_equal. induction (list_ascii_of_string s) as [|c r IH]; cbn; [reflexivity|].
  now rewrite is_hex_lower_hex_char, IH.
Qed.

(** An employee created by [POST /api/employees] satisfies the schema
    rules: its name is the body's name trimmed, non-empty and of at most 100
    characters; its officeId is a well-formed ObjectId; [0 <= coursesEnrolled],
    [coursesCompleted <= coursesEnrolled], and [coursesEnrolled = 0] when not
    registered on iGOT. *)
Theorem created_employee_valid :
  forall now new_id (u : user) (b : employee_body) (st : store employee),
    success (fst (post_employee now new_id u b st)) = true ->
    exists e,
      snd (post_employee now new_id u b st) = app st [(new_id, e)]
      /\ (exists n, b_name b = Some n /\ e_name e = trim n)
      /\ e_name e <> "" /\ (String.length (e_name e) <= 100)%nat
      /\ is_object_id (e_officeId e) = true
      /\ 0 <= e_coursesEnrolled e
      /\ e_coursesCompleted e <= e_coursesEnrolled e
      /\ (e_isRegisteredOnIGOT e = false -> e_coursesEnrolled e = 0).
Proof.
  intros now new_id u b st Hs.
  destruct (post_employee_success now new_id u b st Hs) as (_ & Hv & Hpost).
  rewrite Hpost. cbv zeta.
  eexists. split; [reflexivity|]. cbn [e_name e_officeId e_isRegisteredOnIGOT
    e_coursesEnrolled e_coursesCompleted].
  unfold validate_employee in Hv.
  apply app_eq_nil in Hv as [Hc0 Hv].
  apply app_eq_nil in Hv as [Hn Hv]. apply app_eq_nil in Hv as [Ho Hv].
  apply app_eq_nil in Hv as [He Hc].
  unfold employee_draft_of in *; cbn [d_officeId d_name] in *.
  set (d := mkDraft _ _ _ _ _ _ _) in *.
  split; [|split; [|split; [|split; [|split; [|split]]]]].
  - unfold doc_name in *. cbn [d d_name] in *.
    destruct (b_name b) as [n|]; [|discriminate]. exists n. auto.
  - destruct (doc_name d) as [n|]; [|discriminate]. unfold validate_name in Hn.
    destruct (String.eqb n "") eqn:E; [discriminate|]. now apply String.eqb_neq.
  - destruct (doc_name d) as [n|]; [|discriminate]. unfold validate_name in Hn.
    destruct (String.eqb n ""); [discriminate|].
    destruct (100 <? String.length n)%nat eqn:L; [discriminate|].
    apply Nat.ltb_ge in L. exact L.
  - unfold officeId_cast_errors, validate_officeId in *.
    destruct (b_officeId b) as [o|]; [|discriminate].
    rewrite is_object_id_lower_hex.
    destruct (is_object_id o); [reflexivity | discriminate].
  - unfold coursesEnrolled_validator in He.
    destruct (doc_isRegisteredOnIGOT d).
    + destruct (Z.leb_spec 0 (doc_coursesEnrolled d)); [lia | discriminate].
    + destruct (Z.eqb_spec (doc_coursesEnrolled d) 0); [lia | discriminate].
  - unfold coursesCompleted_validator in Hc.
    destruct (Z.leb_spec (doc_coursesCompleted d) (doc_coursesEnrolled d));
      [lia | discriminate].
  - intros Hr. unfold coursesEnrolled_validator in He. rewrite Hr in He.
    destruct (Z.eqb_spec (doc_coursesEnrolled d) 0); [lia | discriminate].
Qed.

Lemma created_employee_valid_witness :
  exists e,
    snd (post_employee clk oid_emp admin_user body_jo []) = [(oid_emp, e)]
    /\ e_coursesCompleted e <= e_coursesEnrolled e.
Proof.
  destruct (created_employee_valid clk oid_emp admin_user body_jo [] eq_refl)
    as (e & H & _ & _ & _ & _ & _ & Hc & _).
  exists e. split; [exact H | exact Hc].
Defined.

(** A created employee is appended under the new id, unfrozen, with
    [createdBy] the caller, [createdAt] the clock when the document is built,
    [updatedAt] the clock in the save hook, the trimmed name, and
    [reportDate] the body's one unless it is absent or 0 (then the clock in
    the route); a non-admin's employee is in the caller's own office. *)
Theorem created_employee_metadata :
  forall now new_id (u : user) (b : employee_body) (st : store employee),
    success (fst (post_employee now new_id u b st)) = true ->
    exists e,
      snd (post_employee now new_id u b st) = app st [(new_id, e)]
      /\ fst (post_employee now new_id u b st) = ok 201 (PEmployee e)
      /\ e_isFrozen e = false /\ e_createdBy e = u_id u
      /\ e_createdAt e = t_build now /\ e_updatedAt e = t_save now
      /\ Some (e_name e) = option_map trim (b_name b)
      /\ e_reportDate e = (if truthy_num (b_reportDate b)
                           then match b_reportDate b with
                                | Some z => z | None => t_route now end
                           else t_route now)
      /\ (is_admin u = false -> e_officeId e = lower_hex (u_officeId u)).
Proof.
  intros now new_id u b st Hs.
  destruct (post_employee_success now new_id u b st Hs) as (Hown & Hv & Hpost).
  rewrite Hpost. cbv zeta.
  eexists. split; [reflexivity|]. split; [reflexivity|].
  cbn [e_isFrozen e_createdBy e_createdAt e_updatedAt e_name e_reportDate e_officeId].
  split; [reflexivity|]. split; [reflexivity|]. split; [reflexivity|].
  split; [reflexivity|]. split; [|split; [reflexivity|]].
  - unfold validate_employee in Hv. apply app_eq_nil in Hv as [_ Hv].
    apply app_eq_nil in Hv as [Hn _].
    unfold doc_name in *. cbn [employee_draft_of d_name] in *.
    destruct (b_name b); [reflexivity | discriminate].
  - intros Ha. destruct Hown as [Ha' | Ho]; [congruence|].
    unfold office_differs in Ho. destruct (b_officeId b) as [o|]; [|discriminate].
    apply negb_false_iff, String.eqb_eq in Ho. now subst o.
Qed.

Lemma created_employee_metadata_witness :
  exists e,
    snd (post_employee clk oid_emp member_a body_jo []) = [(oid_emp, e)]
    /\ e_createdAt e = 2000 /\ e_updatedAt e = 2001 /\ e_officeId e = oid_office_a.
Proof.
  destruct (created_employee_metadata clk oid_emp member_a body_jo [] eq_refl)
    as (e & H & _ & _ & _ & Hc & Hu & _ & _ & Ho).
  exists e. split; [exact H|]. split; [exact Hc|]. split; [exact Hu|].
  exact (Ho eq_refl).
Defined.




Lemma lookup_replace {D} (st : store D) id id' d' :
  lookup (replace st id d') id'
  = if String.eqb id' id
    then match lookup st id with Some _ => Some d' | None => None end
    else lookup st id'.
Proof.
  induction st as [|[k d] r IH]; cbn [replace lookup].
  - destruct (String.eqb id' id); auto.
  - destruct (String.eqb k id) eqn:E; cbn [lookup].
    + apply String.eqb_eq in E. subst k.
      destruct (String.eqb id' id) eqn:E'.
      * apply String.eqb_eq in E'. subst id'. now rewrite String.eqb_refl.
      * now rewrite String.eqb_sym, E'.
    + rewrite IH. destruct (String.eqb k id') eqn:E'.
      * apply String.eqb_eq in E'. subst id'. now rewrite E.
      * destruct (String.eqb id' id); auto.
Qed.

Lemma replace_replace {D} (st : store D) id a b :
  replace (replace st id a) id b = replace st id b.
Proof.
  induction st as [|[k d] r IH]; cbn; auto.
  destruct (String.eqb k id) eqn:E; cbn; rewrite E; f_equal; auto.
Qed.

Lemma replace_lookup_self {D} (st : store D) id d :
  lookup st id = Some d -> replace st id d = st.
Proof.
  induction st as [|[k d0] r IH]; cbn; [discriminate|].
  destruct (String.eqb k id); [intros H; injection H as ->; reflexivity|].
  intros H. f_equal. auto.
Qed.


Lemma set_frozen_effect now b id (st : store employee) e :
  is_object_id id = true -> lookup st id = Some e ->
  catch_ (set_frozen_body now b id) server_catch st
  = (mkResp 200 true
       (Some (if b then "Employee record has been frozen"
              else "Employee record has been unfrozen"))
       (PEmployee (apply_set e (SetIsFrozen b))),
     replace st id (apply_set e (SetIsFrozen b))).
Proof.
  intros Hid Hl. unfold catch_, set_frozen_body, findById,
    Employee_findByIdAndUpdate, bind, get, put, ret.
  rewrite Hid, Hl. cbn [negb update_casts u_set forallb set_field_casts andb].
  rewrite Hl. reflexivity.
Qed.

(** [PUT /api/employees/freeze/:id] on a stored record succeeds and sets
    [isFrozen]; from then on every [PUT /:id] and [DELETE /:id], by any
    caller and with any body, answers the frozen 403 and changes nothing. *)
Theorem freeze_then_writes_blocked :
  forall now now' (u : user) id body (st : store employee) e,
    is_object_id id = true -> lookup st id = Some e ->
    success (fst (put_freeze now id st)) = true
    /\ option_map e_isFrozen (lookup (snd (put_freeze now id st)) id) = Some true
    /\ put_employee now' u id body (snd (put_freeze now id st))
       = (fail 403 "This record is frozen and cannot be modified", snd (put_freeze now id st))
    /\ delete_employee u id (snd (put_freeze now id st))
       = (fail 403 "This record is frozen and cannot be deleted", snd (put_freeze now id st)).
Proof.
  intros now now' u id body st e Hid Hl.
  unfold put_freeze. rewrite (set_frozen_effect now true id st e Hid Hl). cbn [fst snd success].
  assert (Hl' : lookup (replace st id (apply_set e (SetIsFrozen true))) id
                = Some (apply_set e (SetIsFrozen true)))
    by (rewrite lookup_replace, String.eqb_refl, Hl; reflexivity).
  split; [reflexivity|]. split; [rewrite Hl'; reflexivity|].
  unfold put_employee, delete_employee, catch_, put_employee_body,
    delete_employee_body, findById, bind, get, ret.
  rewrite Hid, Hl'. split; reflexivity.
Qed.

Lemma freeze_then_writes_blocked_witness :
  delete_employee admin_user oid_emp (snd (put_freeze 2000 oid_emp [(oid_emp, emp_with 5 3)]))
  = (fail 403 "This record is frozen and cannot be deleted",
     snd (put_freeze 2000 oid_emp [(oid_emp, emp_with 5 3)])).
Proof.
  exact (proj2 (proj2 (proj2 (freeze_then_writes_blocked 2000 2001 admin_user oid_emp
           (mkUpdate [] []) [(oid_emp, emp_with 5 3)] (emp_with 5 3) eq_refl eq_refl)))).
Defined.

(** Freezing is idempotent, and unfreezing a record that was not frozen
    before the freeze gives the store back exactly. *)
Theorem freeze_unfreeze_roundtrip :
  forall now now' id (st : store employee) e,
    is_object_id id = true -> lookup st id = Some e ->
    snd (put_freeze now' id (snd (put_freeze now id st))) = snd (put_freeze now id st)
    /\ (e_isFrozen e = false ->
        snd (put_unfreeze now' id (snd (put_freeze now id st))) = st).
Proof.
  intros now now' id st e Hid Hl.
  assert (Hl' : forall b, lookup (replace st id (apply_set e (SetIsFrozen b))) id
                          = Some (apply_set e (SetIsFrozen b)))
    by (intros b; rewrite lookup_replace, String.eqb_refl, Hl; reflexivity).
  unfold put_freeze, put_unfreeze.
  rewrite (set_frozen_effect now true id st e Hid Hl). cbn [snd].
  split.
  - rewrite (set_frozen_effect now' true id _ _ Hid (Hl' true)). cbn [snd].
    now rewrite replace_replace.
  - intros Hf. rewrite (set_frozen_effect now' false id _ _ Hid (Hl' true)). cbn [snd].
    rewrite replace_replace. apply replace_lookup_self. rewrite Hl.
    destruct e; cbn in *; subst; reflexivity.
Qed.

Lemma freeze_unfreeze_roundtrip_witness :
  snd (put_unfreeze 2001 oid_emp (snd (put_freeze 2000 oid_emp [(oid_emp, emp_with 5 3)])))
  = [(oid_emp, emp_with 5 3)].
Proof.
  exact (proj2 (freeze_unfreeze_roundtrip 2000 2001 oid_emp [(oid_emp, emp_with 5 3)]
                  (emp_with 5 3) eq_refl eq_refl) eq_refl).
Defined.

Lemma put_employee_authorized now (u : user) id body (st : store employee) e :
  is_object_id id = true -> lookup st id = Some e -> e_isFrozen e = false ->
  (is_admin u = true \/ String.eqb (u_officeId u) (e_officeId e) = true) ->
  update_casts body = true ->
  put_employee now u id body st
  = match update_validate body with
    | [] => (ok 200 (PEmployee (apply_update e body)), replace st id (apply_update e body))
    | errs => (fail 400 (join ", " errs), st)
    end.
Proof.
  intros Hid Hl Hf Hown Hc.
  unfold put_employee, catch_, put_employee_body, findById,
    Employee_findByIdAndUpdate, bind, get, put, ret, throw.
  rewrite Hid, Hl, Hf, Hc.
  replace (negb (is_admin u) && negb (String.eqb (u_officeId u) (e_officeId e))) with false
    by (destruct Hown as [-> | ->]; [reflexivity | symmetry; apply andb_false_r]).
  cbn [negb]. destruct (update_validate body); [rewrite Hl|]; reflexivity.
Qed.










(** A non-admin of the record's office can freeze it through
    [PUT /api/employees/:id] with [{ isFrozen: true }] (the freeze route is
    admin-only, but the body of [PUT /:id] is not filtered), and cannot undo
    it the same way. *)
Theorem member_can_freeze_via_put :
  forall now now' (u : user) id (st : store employee) e,
    is_object_id id = true -> lookup st id = Some e -> e_isFrozen e = false ->
    is_admin u = false -> String.eqb (u_officeId u) (e_officeId e) = true ->
    success (fst (put_employee now u id (mkUpdate [SetIsFrozen true] []) st)) = true
    /\ option_map e_isFrozen
         (lookup (snd (put_employee now u id (mkUpdate [SetIsFrozen true] []) st)) id)
       = Some true
    /\ put_employee now' u id (mkUpdate [SetIsFrozen false] [])
         (snd (put_employee now u id (mkUpdate [SetIsFrozen true] []) st))
       = (fail 403 "This record is frozen and cannot be modified",
          snd (put_employee now u id (mkUpdate [SetIsFrozen true] []) st)).
Proof.
  intros now now' u id st e Hid Hl Hf Ha Ho.
  rewrite (put_employee_authorized now u id (mkUpdate [SetIsFrozen true] []) st e
             Hid Hl Hf (or_intror Ho) eq_refl).
  replace (update_validate (mkUpdate [SetIsFrozen true] [])) with (@nil string)
    by reflexivity.
  cbn [fst snd success].
  assert (Hl' : lookup (replace st id (apply_update e (mkUpdate [SetIsFrozen true] []))) id
                = Some (apply_update e (mkUpdate [SetIsFrozen true] [])))
    by (rewrite lookup_replace, String.eqb_refl, Hl; reflexivity).
  split; [reflexivity|]. split; [rewrite Hl'; reflexivity|].
  unfold put_employee, catch_, put_employee_body, findById, bind, get, ret.
  rewrite Hid, Hl'. reflexivity.
Qed.

Lemma member_can_freeze_via_put_witness :
  option_map e_isFrozen
    (lookup (snd (put_employee 2000 member_a oid_emp (mkUpdate [SetIsFrozen true] [])
                    [(oid_emp, emp_with 5 3)])) oid_emp) = Some true.
Proof.
  exact (proj1 (proj2 (member_can_freeze_via_put 2000 2001 member_a oid_emp
                         [(oid_emp, emp_with 5 3)] (emp_with 5 3)
                         eq_refl eq_refl eq_refl eq_refl eq_refl))).
Defined.

(** A non-admin of the record's office can move it to any other office
    (one whose ObjectId differs from the caller's officeId) through
    [PUT /api/employees/:id] with [{ officeId }], after which the same
    caller is refused it (403) by [PUT /:id] and [DELETE /:id]. *)
Theorem member_can_move_employee_out :
  forall now now' (u : user) id o body (st : store employee) e,
    is_object_id id = true -> lookup st id = Some e -> e_isFrozen e = false ->
    is_admin u = false -> String.eqb (u_officeId u) (e_officeId e) = true ->
    is_object_id o = true -> String.eqb (u_officeId u) (lower_hex o) = false ->
    success (fst (put_employee now u id (mkUpdate [SetOfficeId o] []) st)) = true
    /\ option_map e_officeId
         (lookup (snd (put_employee now u id (mkUpdate [SetOfficeId o] []) st)) id)
       = Some (lower_hex o)
    /\ put_employee now' u id body
         (snd (put_employee now u id (mkUpdate [SetOfficeId o] []) st))
       = (fail 403 "Not authorized to update this employee",
          snd (put_employee now u id (mkUpdate [SetOfficeId o] []) st))
    /\ delete_employee u id (snd (put_employee now u id (mkUpdate [SetOfficeId o] []) st))
       = (fail 403 "Not authorized to delete this employee",
          snd (put_employee now u id (mkUpdate [SetOfficeId o] []) st)).
Proof.
  intros now now' u id o body st e Hid Hl Hf Ha Ho Hoid Hdiff.
  assert (Hc : update_casts (mkUpdate [SetOfficeId o] []) = true).
  { unfold update_casts. cbn [u_set forallb set_field_casts]. now rewrite Hoid. }
  rewrite (put_employee_authorized now u id _ st e Hid Hl Hf (or_intror Ho) Hc).
  replace (update_validate (mkUpdate [SetOfficeId o] [])) with (@nil string)
    by reflexivity.
  cbn [fst snd success].
  set (e' := apply_update e (mkUpdate [SetOfficeId o] [])).
  assert (Hl' : lookup (replace st id e') id = Some e')
    by (rewrite lookup_replace, String.eqb_refl, Hl; reflexivity).
  assert (Ho' : e_officeId e' = lower_hex o) by reflexivity.
  assert (Hf' : e_isFrozen e' = e_isFrozen e) by reflexivity.
  split; [reflexivity|]. split; [rewrite Hl'; reflexivity|].
  unfold delete_employee, put_employee, catch_, delete_employee_body, put_employee_body,
    findById, bind, get, ret.
  rewrite Hid, Hl', Ha, Ho', Hdiff, Hf', Hf. split; reflexivity.
Qed.

Lemma member_can_move_employee_out_witness :
  put_employee 2001 member_a oid_emp (mkUpdate [SetName "Jo B"] [])
    (snd (put_employee 2000 member_a oid_emp (mkUpdate [SetOfficeId oid_office_b] [])
            [(oid_emp, emp_with 5 3)]))
  = (fail 403 "Not authorized to update this employee",
     snd (put_employee 2000 member_a oid_emp (mkUpdate [SetOfficeId oid_office_b] [])
            [(oid_emp, emp_with 5 3)])).
Proof.
  exact (proj1 (proj2 (proj2 (member_can_move_employee_out 2000 2001 member_a oid_emp
           oid_office_b (mkUpdate [SetName "Jo B"] []) [(oid_emp, emp_with 5 3)]
           (emp_with 5 3) eq_refl eq_refl eq_refl eq_refl eq_refl eq_refl eq_refl)))).
Defined.

(** [GET /api/employees/report] without both dates answers exactly the
    records of [GET /api/employees] for the same caller, and with two
    non-empty dates of which one is not a valid date it answers 500 and
    changes nothing. *)
Theorem report_listing_and_bad_dates :
  forall parse_date (u : user) (st : store employee),
    get_report parse_date u None None st = (ok 200 (PEmployees (visible u st)), st)
    /\ l_data (fst (get_employees u st))
       = Some (LEmployees (Z.of_nat (List.length (visible u st))) (visible u st))
    /\ (forall startDate endDate,
          startDate <> "" -> endDate <> "" ->
          parse_date startDate = None \/ parse_date endDate = None ->
          get_report parse_date u (Some startDate) (Some endDate) st
          = (fail 500 "Server Error", st)).
Proof.
  intros parse_date u st. split; [|split].
  - unfold get_report, catch_, get_report_body, Employee_find, report_query_of,
      bind, get, ret, visible.
    cbn [truthy_str andb q_reportDate q_officeId].
    destruct (is_admin u); cbn [negb office_matches].
    + do 3 f_equal. induction st as [|kd r IH]; cbn; [reflexivity|].
      now rewrite IH.
    + reflexivity.
  - reflexivity.
  - intros sd ed Hs He Hbad.
    unfold get_report, catch_, get_report_body, Employee_find, report_query_of,
      truthy_str, bind, throw.
    apply String.eqb_neq in Hs. apply String.eqb_neq in He.
    cbn [q_reportDate]. rewrite Hs, He. cbn [negb andb].
    destruct Hbad as [-> | ->]; [reflexivity|].
    destruct (parse_date sd); reflexivity.
Qed.

Lemma report_listing_and_bad_dates_witness :
  get_report parse_jan member_a (Some "2024-01-01") (Some "notadate") report_store
  = (fail 500 "Server Error", report_store).
Proof.
  apply (proj2 (proj2 (report_listing_and_bad_dates parse_jan member_a report_store)));
    [discriminate | discriminate | right; reflexivity].
Defined.



Lemma post_office_success :
  forall now new_id (u : user) (b : office_body) (ost : store office),
    success (fst (post_office now new_id u b ost)) = true ->
    validate_office b = []
    /\ post_office now new_id u b ost
       = (ok 201 (POffice (mkOffice (match ob_name b with Some n => trim n | None => "" end)
                             (match ob_location b with Some l => trim l | None => "" end)
                             (option_map trim (ob_description b)) (u_id u) now)),
          app ost [(new_id, mkOffice (match ob_name b with Some n => trim n | None => "" end)
                             (match ob_location b with Some l => trim l | None => "" end)
                             (option_map trim (ob_description b)) (u_id u) now)]).
Proof.
  intros now new_id u b ost.
  unfold post_office, catch_, post_office_body, Office_create, bind, get, put, ret, throw.
  destruct b as [n l d c t]. cbn [ob_name ob_location ob_description].
  change (validate_office (mkOfficeBody n l d c t))
    with (validate_office (mkOfficeBody n l d None None)).
  destruct (validate_office (mkOfficeBody n l d None None)); cbn; [|discriminate].
  auto.
Qed.

(** An office created by [POST /api/offices] is appended under the new id
    with a non-empty trimmed name of at most 100 characters, a non-empty
    trimmed location, [createdBy] the caller and [createdAt] the request
    time. *)
Theorem created_office_valid :
  forall now new_id (u : user) (b : office_body) (ost : store office),
    success (fst (post_office now new_id u b ost)) = true ->
    exists o,
      snd (post_office now new_id u b ost) = app ost [(new_id, o)]
      /\ fst (post_office now new_id u b ost) = ok 201 (POffice o)
      /\ o_name o <> "" /\ (String.length (o_name o) <= 100)%nat
      /\ Some (o_name o) = option_map trim (ob_name b)
      /\ o_location o <> ""
      /\ Some (o_location o) = option_map trim (ob_location b)
      /\ o_createdBy o = u_id u /\ o_createdAt o = now.
Proof.
  intros now new_id u b ost Hs.
  destruct (post_office_success now new_id u b ost Hs) as [Hv ->].
  eexists. split; [reflexivity|]. split; [reflexivity|].
  cbn [o_name o_location o_createdBy o_createdAt].
  unfold validate_office in Hv. apply app_eq_nil in Hv as [Hn Hl].
  destruct (ob_name b) as [n|]; [|discriminate].
  destruct (ob_location b) as [l|]; [|discriminate].
  cbn [option_map validate_office_name validate_location] in *.
  destruct (String.eqb (trim n) "") eqn:En; [discriminate|].
  destruct (100 <? String.length (trim n))%nat eqn:L; [discriminate|].
  destruct (String.eqb (trim l) "") eqn:El; [discriminate|].
  apply String.eqb_neq in En, El. apply Nat.ltb_ge in L.
  repeat split; auto.
Qed.

Lemma created_office_valid_witness :
  exists o,
    snd (post_office 2000 oid_office_b admin_user
           (mkOfficeBody (Some " Branch ") (Some "Pune") None None None) [])
    = [(oid_office_b, o)] /\ o_name o = "Branch".
Proof.
  destruct (created_office_valid 2000 oid_office_b admin_user
              (mkOfficeBody (Some " Branch ") (Some "Pune") None None None) [] eq_refl)
    as (o & H & _ & _ & _ & Hn & _).
  exists o. split; [exact H|]. cbn in Hn. injection Hn as Hn. exact Hn.
Defined.




